(** * ASGI response-lifecycle tracking: a shallow embedding of
      [server.py] (ASGITrackingMiddleware, get_greeting), [client.py]
      (quick_disconnect_test, delayed_disconnect_test, main) and
      [client_fast_disconnect.py] (rapid_disconnect_during_handshake),
      with the properties of the specification and further properties
      read off the code.

    Python dictionaries are finite maps from strings to values, the two
    [nonlocal] flags are a record threaded through the calls, exceptions
    are an explicit outcome, and the logger is a list of records in
    emission order. *)

From Stdlib Require Import ZArith DecimalString.
From stdpp Require Import gmap strings list fin_maps.

Open Scope string_scope.
Open Scope list_scope.

(** ** Python values, exceptions, dictionaries *)

Module Py.

(** The values an ASGI scope or message carries. *)
#[local] Set Warnings "-register-all".
Inductive value : Type :=
  | VNone
  | VBool (b : bool)
  | VInt (z : Z)
  | VStr (s : string)
  | VBytes (bs : list Byte.byte)
  | VList (vs : list value).

(** Exceptions.  [CancelledError] derives from [BaseException] only, the
    others from [Exception]. *)
Inductive exc : Type :=
  | KeyError (key : string)
  | TypeError
  | CancelledError
  | OtherError (name : string).

(** How a call ends: it returns, or it raises. *)
Inductive outcome : Type :=
  | Returned
  | Raised (e : exc).

(** [v == s] for a string literal [s]: only an equal [str] compares equal. *)
Definition eq_str (v : value) (s : string) : bool :=
  match v with
  | VStr t => String.eqb t s
  | _ => false
  end.

(** [len(v)]: defined on strings, bytes and lists; a [TypeError] otherwise. *)
Definition len (v : value) : option nat :=
  match v with
  | VStr s => Some (String.length s)
  | VBytes bs => Some (length bs)
  | VList vs => Some (length vs)
  | VNone | VBool _ | VInt _ => None
  end.

(** [d.get(k, dflt)] *)
Definition get (d : gmap string value) (k : string) (dflt : value) : value :=
  default dflt (d !! k).

End Py.

Import Py.

Abbreviation message := (gmap string value).
Abbreviation scope := (gmap string value).

(** ** Logging *)

Inductive log_level : Type := DEBUG | INFO | ERROR.

(** The four records the middleware writes; each carries the values its
    f-string interpolates.
    - [AsgiStart path]: "[{path}] ASGI: http.response.start"
    - [AsgiBody path n mb]: "[{path}] ASGI: http.response.body (bytes={n}, more_body={mb})"
    - [ProtocolViolation path]: "[{path}] ASGI PROTOCOL VIOLATION: http.response.start sent but no http.response.body message!"
    - [ProtocolCompleted path]: "[{path}] ASGI protocol completed correctly" *)
Inductive log_event : Type :=
  | AsgiStart (path : value)
  | AsgiBody (path : value) (body_len : nat) (more_body : value)
  | ProtocolViolation (path : value)
  | ProtocolCompleted (path : value).

Record log_record : Type := LogRecord { level : log_level; event : log_event }.

(** ** The middleware *)

(** The two [nonlocal] variables of [__call__]. *)
Record lifecycle : Type := Lifecycle { response_started : bool; body_sent : bool }.

(** What the middleware can act on outside its own variables: the
    messages handed to the underlying [send], oldest first, and the log. *)
Record world : Type := World { forwarded : list message; log : list log_record }.

Definition emit (r : log_record) (w : world) : world :=
  World (forwarded w) (log w ++ [r]).

(** An ASGI application, seen from its [send] argument: it ends, or it
    awaits [send(m)] and goes on according to how that call ended (it may
    let the exception through or handle it).  Cancellation is a
    [CancelledError] raised at an await.  The [receive] callable is passed
    through by the middleware untouched; what the application reads from
    it is part of which tree it is. *)
Inductive app : Type :=
  | Done (o : outcome)
  | AwaitSend (m : message) (k : outcome -> app).

Definition initial : lifecycle := Lifecycle false false.

Section Middleware.

(** The underlying [send] callable: given the messages it received so
    far and the next one, it returns or raises. *)
Variable send : list message -> message -> outcome.

(** [await send(message)] *)
Definition raw_send (m : message) (w : world) : world * outcome :=
  (World (forwarded w ++ [m]) (log w), send (forwarded w) m).

(** [tracking_send], closed over [path]. *)
Definition tracking_send (path : value) (m : message)
    (st : lifecycle * world) : (lifecycle * world) * outcome :=
  let '(lc, w) := st in
  match m !! "type" with
  | None => ((lc, w), Raised (KeyError "type"))
  | Some msg_type =>
      if eq_str msg_type "http.response.start" then
        let lc1 := Lifecycle true (body_sent lc) in
        let w1 := emit (LogRecord DEBUG (AsgiStart path)) w in
        let '(w2, o) := raw_send m w1 in ((lc1, w2), o)
      else if eq_str msg_type "http.response.body" then
        let lc1 := Lifecycle (response_started lc) true in
        let more_body := get m "more_body" (VBool false) in
        match len (get m "body" (VBytes [])) with
        | None => ((lc1, w), Raised TypeError)
        | Some body_len =>
            let w1 := emit (LogRecord DEBUG (AsgiBody path body_len more_body)) w in
            let '(w2, o) := raw_send m w1 in ((lc1, w2), o)
        end
      else
        let '(w2, o) := raw_send m w in ((lc, w2), o)
  end.

(** Running an application against a [send] callable acting on a state
    [S].  The third component is the trace: the messages the
    application passed to the callable, oldest first, each with the
    state that call left. *)
Fixpoint run {S : Type} (snd_fn : message -> S -> S * outcome)
    (a : app) (s : S) : S * outcome * list (message * S) :=
  match a with
  | Done o => (s, o, [])
  | AwaitSend m k =>
      let '(s1, r) := snd_fn m s in
      let '(s2, o, tr) := run snd_fn (k r) s1 in
      (s2, o, (m, s1) :: tr)
  end.

(** [try: body finally: fin].  The finalizer runs however the body
    ended; the body's outcome stands unless the finalizer itself raises. *)
Definition try_finally {S : Type} (body : S -> S * outcome)
    (fin : S -> S * outcome) (s : S) : S * outcome :=
  let '(s1, o) := body s in
  let '(s2, o') := fin s1 in
  match o' with
  | Returned => (s2, o)
  | Raised e => (s2, Raised e)
  end.

(** The [finally] block of [__call__]. *)
Definition report (path : value) (st : lifecycle * world)
    : (lifecycle * world) * outcome :=
  let '(lc, w) := st in
  if response_started lc && negb (body_sent lc) then
    ((lc, emit (LogRecord ERROR (ProtocolViolation path)) w), Returned)
  else if response_started lc && body_sent lc then
    ((lc, emit (LogRecord DEBUG (ProtocolCompleted path)) w), Returned)
  else
    ((lc, w), Returned).

(** The tracked part of [__call__]: from [response_started = False]
    to the end of the [finally] block. *)
Definition tracked (path : value) (a : app) (w : world)
    : (lifecycle * world) * outcome :=
  try_finally
    (fun st => let '(st1, o, _) := run (tracking_send path) a st in (st1, o))
    (report path)
    (initial, w).

(** [ASGITrackingMiddleware.__call__]. *)
Definition call (sc : scope) (a : app) (w : world) : world * outcome :=
  match sc !! "type" with
  | None => (w, Raised (KeyError "type"))
  | Some ty =>
      if negb (eq_str ty "http") then
        let '(w1, o, _) := run raw_send a w in (w1, o)
      else
        let path := get sc "path" (VStr EmptyString) in
        let '((_, w1), o) := tracked path a w in (w1, o)
  end.

End Middleware.

(** ** Reading the run *)

(** The outcome classes of the specification, read off the [finally]
    block: its first branch, its second branch, neither. *)
Inductive classification : Type := Violation | Clean | Idle.

Definition classify (lc : lifecycle) : classification :=
  if response_started lc && negb (body_sent lc) then Violation
  else if response_started lc && body_sent lc then Clean
  else Idle.

(** [message["type"] == s], [false] when the key is absent. *)
Definition has_type (s : string) (m : message) : bool :=
  match m !! "type" with
  | Some t => eq_str t s
  | None => false
  end.

Definition is_start : message -> bool := has_type "http.response.start".
Definition is_body : message -> bool := has_type "http.response.body".

(** What one call of [tracking_send] does to the two flags.  It depends
    neither on the transport nor on the path nor on the log
    ([tracking_send_lifecycle] below). *)
Definition observe (m : message) (lc : lifecycle) : lifecycle :=
  (tracking_send (fun _ _ => Returned) VNone m (lc, World [] [])).1.1.

(** The flags after a sequence of calls, oldest first. *)
Definition lifecycle_after (ms : list message) : lifecycle :=
  foldl (fun lc m => observe m lc) initial ms.

(** The flags at the end of the application's run, and the messages it
    passed to [tracking_send]. *)
Definition final_lifecycle (send : list message -> message -> outcome)
    (path : value) (a : app) (w : world) : lifecycle :=
  (run (tracking_send send path) a (initial, w)).1.1.1.

Definition trace (send : list message -> message -> outcome)
    (path : value) (a : app) (w : world) : list (message * (lifecycle * world)) :=
  (run (tracking_send send path) a (initial, w)).2.

Definition observed (send : list message -> message -> outcome)
    (path : value) (a : app) (w : world) : list message :=
  map fst (trace send path a w).

(** The handler's own outcome under the tracking callable. *)
Definition handler_outcome (send : list message -> message -> outcome)
    (path : value) (a : app) (w : world) : outcome :=
  (run (tracking_send send path) a (initial, w)).1.2.

(** The records written by the [finally] block: what the log of the
    whole tracked call has beyond the log at the end of the run. *)
Definition completion_records (send : list message -> message -> outcome)
    (path : value) (a : app) (w : world) : list log_record :=
  drop (length (log (run (tracking_send send path) a (initial, w)).1.1.2))
       (log (tracked send path a w).1.2).

(** The spec's invariant on the flags. *)
Definition body_implies_start (lc : lifecycle) : Prop :=
  body_sent lc = true -> response_started lc = true.

(** No body message before the first start message. *)
Fixpoint protocol_ordered (started : bool) (ms : list message) : bool :=
  match ms with
  | [] => true
  | m :: ms' =>
      implb (is_body m) started && protocol_ordered (started || is_start m) ms'
  end.

(** A message [tracking_send] gets as far as forwarding: it has a
    ["type"], and if that is the body type its ["body"], when present,
    has a length. *)
Definition forwardable (m : message) : bool :=
  match m !! "type" with
  | None => false
  | Some t =>
      if eq_str t "http.response.body"
      then bool_decide (is_Some (len (get m "body" (VBytes []))))
      else true
  end.

(** Sample data. *)
Definition msg_start : message :=
  {[ "type" := VStr "http.response.start"; "status" := VInt 200 ]}.
Definition msg_body (more : bool) : message :=
  {[ "type" := VStr "http.response.body"; "body" := VBytes [];
     "more_body" := VBool more ]}.
Definition msg_trailers : message :=
  {[ "type" := VStr "http.response.trailers" ]}.
Definition msg_bad_body : message :=
  {[ "type" := VStr "http.response.body"; "body" := VInt 5 ]}.
Definition http_scope : scope :=
  {[ "type" := VStr "http"; "path" := VStr "/mcp" ]}.
Definition always_ok : list message -> message -> outcome := fun _ _ => Returned.
Definition world0 : world := World [] [].

(** Let a failed [send] through, otherwise go on. *)
Definition then_ (m : message) (rest : app) : app :=
  AwaitSend m (fun r => match r with Returned => rest | Raised e => Done (Raised e) end).

(** ** Further readings of the middleware *)

(** The path a record is tagged with. *)
Definition record_path (r : log_record) : value :=
  match event r with
  | AsgiStart p | AsgiBody p _ _ | ProtocolViolation p | ProtocolCompleted p => p
  end.

Definition is_error (r : log_record) : bool :=
  match level r with ERROR => true | _ => false end.

(** Flag by flag, what is set in [a] is set in [b]. *)
Definition flags_le (a b : lifecycle) : Prop :=
  (response_started a = true -> response_started b = true) /\
  (body_sent a = true -> body_sent b = true).

(** The tool [get_greeting] of [server.py]: f"Hello, {name}!" *)
Definition get_greeting (name : string) : string :=
  String.append "Hello, " (String.append name "!").

(** ** The immediate-disconnect client ([client.py]) *)

Module Client.

(** The exception classes the request can raise.  [ReadTimeout] is
    [httpx.ReadTimeout]; the next four derive from [Exception] as well;
    [CancelledError] and [KeyboardInterrupt] derive from [BaseException]
    only. *)
Inductive exc_class : Type :=
  | ReadTimeout
  | ConnectTimeout
  | ConnectError
  | RemoteProtocolError
  | OtherException (name : string)
  | CancelledError
  | KeyboardInterrupt.

(** An exception object: its class and [str(e)]. *)
Record exception : Type := Exn { cls : exc_class; text : string }.

(** [isinstance(e, httpx.ReadTimeout)] *)
Definition is_ReadTimeout (c : exc_class) : bool :=
  match c with ReadTimeout => true | _ => false end.

(** [isinstance(e, Exception)] *)
Definition is_Exception (c : exc_class) : bool :=
  match c with CancelledError | KeyboardInterrupt => false | _ => true end.

(** [type(e).__name__] *)
Definition type_name (c : exc_class) : string :=
  match c with
  | ReadTimeout => "ReadTimeout"
  | ConnectTimeout => "ConnectTimeout"
  | ConnectError => "ConnectError"
  | RemoteProtocolError => "RemoteProtocolError"
  | OtherException name => name
  | CancelledError => "CancelledError"
  | KeyboardInterrupt => "KeyboardInterrupt"
  end.

Inductive result : Type :=
  | Completed
  | Propagated (e : exception).

(** What the client logs.  [Text s] is a literal message;
    - [ResponseStatus c]: "Response status: {c}"
    - [ResponseHeaders hs]: "Response headers: {hs}"
    - [ErrorReport n t]: "Error: {n}: {t}" *)
Inductive log_event : Type :=
  | Text (s : string)
  | ResponseStatus (status_code : Z)
  | ResponseHeaders (headers : list (string * string))
  | ErrorReport (name : string) (msg : string).

Record log_record : Type := LogRecord { level : log_level; event : log_event }.

Definition info (e : log_event) : log_record := LogRecord INFO e.
Definition error (e : log_event) : log_record := LogRecord ERROR e.

Record response : Type :=
  Response { status_code : Z; headers : list (string * string) }.

(** What [async with client.stream(...) as response] meets: entering
    raises (the request, the wait for the response headers under the 1.0 s
    timeout), or it yields a response and leaving the block, which closes
    the response, returns or raises. *)
Inductive stream_result : Type :=
  | StreamRaised (e : exception)
  | StreamOpened (r : response) (on_close : option exception).

(** The network as one run of the test meets it: the streaming request,
    and what closing the [AsyncClient] raises, if anything. *)
Record env : Type := Env { stream : stream_result; client_close : option exception }.

(** ["=" * 60] *)
Fixpoint repeat_string (s : string) (n : nat) : string :=
  match n with
  | O => EmptyString
  | S n' => String.append s (repeat_string s n')
  end.

Definition banner : log_event := Text (repeat_string "=" 60).

(** The body of the [try]: its records and the exception it raises. *)
Definition request (sr : stream_result) : list log_record * option exception :=
  let l := [info (Text "Sending POST request with SSE Accept header...")] in
  match sr with
  | StreamRaised e => (l, Some e)
  | StreamOpened r on_close =>
      (l ++ [info (ResponseStatus (status_code r));
             info (ResponseHeaders (headers r));
             info (Text "Closing connection immediately without reading events...")],
       on_close)
  end.

(** The two [except] clauses, in order: their records and the exception
    that neither catches. *)
Definition handlers (raised : option exception) : list log_record * option exception :=
  match raised with
  | None => ([], None)
  | Some e =>
      if is_ReadTimeout (cls e) then
        ([info (Text "Timeout occurred (expected)")], None)
      else if is_Exception (cls e) then
        ([error (ErrorReport (type_name (cls e)) (text e))], None)
      else ([], Some e)
  end.

(** [quick_disconnect_test] *)
Definition quick_disconnect_test (v : env) : list log_record * result :=
  let l0 := [info banner;
             info (Text "TEST: Quick disconnect before first event");
             info banner] in
  let '(l1, raised) := request (stream v) in
  let '(l2, escaped) := handlers raised in
  match client_close v, escaped with
  | Some e, _ => (l0 ++ l1 ++ l2, Propagated e)
  | None, Some e => (l0 ++ l1 ++ l2, Propagated e)
  | None, None =>
      (l0 ++ l1 ++ l2 ++ [info (Text "Connection closed"); info (Text EmptyString)], Completed)
  end.

(** The exception raised inside the [try], if any. *)
Definition raised_in_request (v : env) : option exception :=
  (request (stream v)).2.

(** *** [delayed_disconnect_test] and [main] *)

(** [str(n)] for an [int]. *)
Definition str_int (z : Z) : string := NilZero.string_of_int (Z.to_int z).

(** What the streaming request of [delayed_disconnect_test] meets:
    entering raises, or it yields a response, [asyncio.sleep] returns or
    raises (cancellation), and closing the response on the way out of the
    block returns or raises. *)
Inductive delayed_stream : Type :=
  | DelayedRaised (e : exception)
  | DelayedOpened (r : response) (slept : option exception)
      (on_close : option exception).

Record delayed_env : Type :=
  DelayedEnv { delayed_stream_of : delayed_stream;
               delayed_client_close : option exception }.

(** The body of the [try] of [delayed_disconnect_test].  An exception
    raised while the response is closed replaces the one that was on its
    way out of the block. *)
Definition delayed_request (delay_ms : Z) (sr : delayed_stream)
    : list log_record * option exception :=
  let l := [info (Text "Sending POST request with SSE Accept header...")] in
  match sr with
  | DelayedRaised e => (l, Some e)
  | DelayedOpened r slept on_close =>
      let l1 := l ++ [info (ResponseStatus (status_code r))] in
      match slept with
      | Some e => (l1, Some (default e on_close))
      | None =>
          (l1 ++ [info (Text (String.append "Waited "
                     (String.append (str_int delay_ms)
                        "ms, now closing without reading...")))],
           on_close)
      end
  end.

(** The [except] clauses of [delayed_disconnect_test]. *)
Definition delayed_handlers (raised : option exception)
    : list log_record * option exception :=
  match raised with
  | None => ([], None)
  | Some e =>
      if is_ReadTimeout (cls e) then
        ([info (Text "Timeout occurred")], None)
      else if is_Exception (cls e) then
        ([error (ErrorReport (type_name (cls e)) (text e))], None)
      else ([], Some e)
  end.

(** [delayed_disconnect_test] *)
Definition delayed_disconnect_test (delay_ms : Z) (v : delayed_env)
    : list log_record * result :=
  let l0 := [info banner;
             info (Text (String.append "TEST: Delayed disconnect ("
                      (String.append (str_int delay_ms)
                         "ms) before first event")));
             info banner] in
  let '(l1, raised) := delayed_request delay_ms (delayed_stream_of v) in
  let '(l2, escaped) := delayed_handlers raised in
  match delayed_client_close v, escaped with
  | Some e, _ => (l0 ++ l1 ++ l2, Propagated e)
  | None, Some e => (l0 ++ l1 ++ l2, Propagated e)
  | None, None =>
      (l0 ++ l1 ++ l2 ++ [info (Text "Connection closed"); info (Text EmptyString)],
       Completed)
  end.

(** Sequencing of awaited steps: the second runs only if the first
    completed. *)
Definition and_then (p q : list log_record * result) : list log_record * result :=
  match p.2 with
  | Completed => (p.1 ++ q.1, q.2)
  | Propagated e => p
  end.

(** [await asyncio.sleep(1)] *)
Definition sleep (s : option exception) : list log_record * result :=
  ([], match s with None => Completed | Some e => Propagated e end).

Definition say (l : list log_record) : list log_record * result := (l, Completed).

(** What one run of [main] meets: its four sleeps and its four tests. *)
Record main_env : Type :=
  MainEnv { sleep0 : option exception; test1 : env;
            sleep1 : option exception; test2 : delayed_env;
            sleep2 : option exception; test3 : delayed_env;
            sleep3 : option exception; test4 : delayed_env }.

Definition main_intro : list log_record :=
  [info (Text "FastMCP SSE Disconnect Reproduction Client");
   info (Text "Make sure server.py is running on http://localhost:8000");
   info (Text EmptyString)].

Definition main_outro : list log_record :=
  [info banner;
   info (Text "All tests completed");
   info (Text "Check server logs for ASGI protocol violations");
   info banner].

(** [main] of [client.py] *)
Definition main (v : main_env) : list log_record * result :=
  and_then (say main_intro)
  (and_then (sleep (sleep0 v))
  (and_then (quick_disconnect_test (test1 v))
  (and_then (sleep (sleep1 v))
  (and_then (delayed_disconnect_test 50 (test2 v))
  (and_then (sleep (sleep2 v))
  (and_then (delayed_disconnect_test 100 (test3 v))
  (and_then (sleep (sleep3 v))
  (and_then (delayed_disconnect_test 200 (test4 v))
            (say main_outro))))))))).

(** The exception raised inside the [try] of the delayed test. *)
Definition delayed_raised (delay_ms : Z) (v : delayed_env) : option exception :=
  (delayed_request delay_ms (delayed_stream_of v)).2.

(** No exception outside the [Exception] hierarchy (cancellation, a
    keyboard interrupt) occurs in the test, and closing the client
    returns. *)
Definition undisturbed (v : env) : bool :=
  match client_close v, raised_in_request v with
  | Some _, _ => false
  | None, Some e => is_Exception (cls e)
  | None, None => true
  end.

Definition delayed_undisturbed (delay_ms : Z) (v : delayed_env) : bool :=
  match delayed_client_close v, delayed_raised delay_ms v with
  | Some _, _ => false
  | None, Some e => is_Exception (cls e)
  | None, None => true
  end.

(** *** [rapid_disconnect_during_handshake] ([client_fast_disconnect.py]) *)

(** What [await client.send(request, stream=True)] and then
    [await response.aclose()] meet. *)
Inductive handshake : Type :=
  | SendRaised (e : exception)
  | SendReturned (r : response) (on_close : option exception).

Record handshake_env : Type :=
  HandshakeEnv { handshake_of : handshake;
                 handshake_client_close : option exception }.

Definition handshake_request (h : handshake) : list log_record * option exception :=
  let l := [info (Text "Opening streaming connection...")] in
  match h with
  | SendRaised e => (l, Some e)
  | SendReturned r on_close =>
      let l1 := l ++ [info (Text (String.append "Response started: "
                                    (str_int (status_code r))))] in
      match on_close with
      | Some e => (l1, Some e)
      | None => (l1 ++ [info (Text "Closed response immediately")], None)
      end
  end.

(** The single [except Exception] clause. *)
Definition handshake_handlers (raised : option exception)
    : list log_record * option exception :=
  match raised with
  | None => ([], None)
  | Some e =>
      if is_Exception (cls e) then
        ([error (ErrorReport (type_name (cls e)) (text e))], None)
      else ([], Some e)
  end.

(** [rapid_disconnect_during_handshake] *)
Definition rapid_disconnect_during_handshake (v : handshake_env)
    : list log_record * result :=
  let l0 := [info banner;
             info (Text "TEST: Disconnect during connection handshake");
             info banner] in
  let '(l1, raised) := handshake_request (handshake_of v) in
  let '(l2, escaped) := handshake_handlers raised in
  match handshake_client_close v, escaped with
  | Some e, _ => (l0 ++ l1 ++ l2, Propagated e)
  | None, Some e => (l0 ++ l1 ++ l2, Propagated e)
  | None, None => (l0 ++ l1 ++ l2 ++ [info (Text EmptyString)], Completed)
  end.

End Client.

Example run_clean :
  call always_ok http_scope (then_ msg_start (then_ (msg_body false) (Done Returned))) world0
  = (World [msg_start; msg_body false]
       [LogRecord DEBUG (AsgiStart (VStr "/mcp"));
        LogRecord DEBUG (AsgiBody (VStr "/mcp") 0 (VBool false));
        LogRecord DEBUG (ProtocolCompleted (VStr "/mcp"))], Returned).
Proof. vm_compute. reflexivity. Qed.

Example run_violation_cancelled :
  call always_ok http_scope (then_ msg_start (Done (Raised CancelledError))) world0
  = (World [msg_start]
       [LogRecord DEBUG (AsgiStart (VStr "/mcp"));
        LogRecord ERROR (ProtocolViolation (VStr "/mcp"))], Raised CancelledError).
Proof. vm_compute. reflexivity. Qed.

Example run_idle :
  call always_ok http_scope (Done Returned) world0 = (world0, Returned).
Proof. vm_compute. reflexivity. Qed.

Example run_typeless :
  call always_ok http_scope (then_ ∅ (Done Returned)) world0
  = (world0, Raised (KeyError "type")).
Proof. vm_compute. reflexivity. Qed.

Example run_bad_body :
  call always_ok http_scope (then_ msg_bad_body (Done Returned)) world0
  = (world0, Raised TypeError).
Proof. vm_compute. reflexivity. Qed.

(** ** Lemmas on one call of [tracking_send] *)

Lemma eq_str_true v s : eq_str v s = true -> v = VStr s.
Proof.
  destruct v; simpl; try discriminate.
  intros H. apply String.eqb_eq in H. by subst.
Qed.

(** The flags after a call are a function of the message and the flags
    before it. *)
Lemma tracking_send_lifecycle send path m lc w :
  (tracking_send send path m (lc, w)).1.1 = observe m lc.
Proof.
  unfold observe, tracking_send.
  destruct (m !! "type") as [t|]; [|done].
  destruct (eq_str t "http.response.start"); [done|].
  destruct (eq_str t "http.response.body"); [|done].
  by destruct (len _).
Qed.

Lemma observe_flags m lc :
  response_started (observe m lc) = response_started lc || is_start m /\
  body_sent (observe m lc) = body_sent lc || is_body m.
Proof.
  unfold observe, tracking_send, is_start, is_body, has_type.
  destruct (m !! "type") as [t|]; simpl.
  - destruct (eq_str t "http.response.start") eqn:Hs.
    + apply eq_str_true in Hs as ->. simpl.
      by rewrite !orb_true_r, orb_false_r.
    + destruct (eq_str t "http.response.body") eqn:Hb.
      * destruct (len _); simpl; by rewrite orb_false_r, orb_true_r.
      * simpl. by rewrite !orb_false_r.
  - by rewrite !orb_false_r.
Qed.

Lemma lifecycle_fold_flags ms lc :
  let lc' := foldl (fun lc m => observe m lc) lc ms in
  response_started lc' = response_started lc || existsb is_start ms /\
  body_sent lc' = body_sent lc || existsb is_body ms.
Proof.
  revert lc. induction ms as [|m ms IH]; intros lc; simpl.
  - by rewrite !orb_false_r.
  - destruct (IH (observe m lc)) as [-> ->].
    destruct (observe_flags m lc) as [-> ->].
    by rewrite !orb_assoc.
Qed.

(** A forwardable message reaches the transport: the flags are updated,
    one debug record is written for a start or body message, the message
    is appended to what the transport received, and the call ends as the
    transport's [send] does. *)
Lemma tracking_send_forwardable send path m lc w :
  forwardable m = true ->
  exists recs,
    tracking_send send path m (lc, w)
    = ((observe m lc, World (forwarded w ++ [m]) (log w ++ recs)),
       send (forwarded w) m).
Proof.
  intros Hf. rewrite <- (tracking_send_lifecycle send path m lc w).
  unfold forwardable in Hf. unfold tracking_send, raw_send, emit. simpl.
  destruct (m !! "type") as [t|]; [|done].
  destruct (eq_str t "http.response.start").
  { by eexists [_]. }
  destruct (eq_str t "http.response.body").
  - apply bool_decide_eq_true in Hf as [n Hn]. rewrite Hn. by eexists [_].
  - exists []. by rewrite app_nil_r; destruct w.
Qed.

(** ** Lemmas on a whole run *)

Lemma run_lifecycle send path a lc w :
  (run (tracking_send send path) a (lc, w)).1.1.1
  = foldl (fun lc m => observe m lc) lc
      (map fst (run (tracking_send send path) a (lc, w)).2).
Proof.
  revert lc w. induction a as [o|m k IH]; intros lc w; [done|].
  cbn [run].
  pose proof (tracking_send_lifecycle send path m lc w) as Hl.
  destruct (tracking_send send path m (lc, w)) as [[lc1 w1] r].
  simpl in Hl. subst lc1.
  specialize (IH r (observe m lc) w1).
  destruct (run (tracking_send send path) (k r) (observe m lc, w1)) as [[[lc2 w2] o] tr].
  exact IH.
Qed.

Lemma final_lifecycle_after send path a w :
  final_lifecycle send path a w = lifecycle_after (observed send path a w).
Proof. apply run_lifecycle. Qed.

(** The [finally] block returns, keeps the flags and the forwarded
    messages, and writes according to the branch taken. *)
Lemma report_spec path lc w :
  report path (lc, w)
  = ((lc, World (forwarded w)
            (log w ++ match classify lc with
                      | Violation => [LogRecord ERROR (ProtocolViolation path)]
                      | Clean => [LogRecord DEBUG (ProtocolCompleted path)]
                      | Idle => []
                      end)), Returned).
Proof.
  unfold report, classify, emit.
  destruct (response_started lc), (body_sent lc); simpl; try done.
  all: by rewrite app_nil_r; destruct w.
Qed.

Lemma tracked_spec send path a w :
  tracked send path a w
  = ((report path (run (tracking_send send path) a (initial, w)).1.1).1,
     handler_outcome send path a w).
Proof.
  unfold tracked, try_finally, handler_outcome.
  destruct (run (tracking_send send path) a (initial, w)) as [[[lc1 w1] o] ms].
  cbn [fst snd]. by rewrite (report_spec path lc1 w1).
Qed.

Lemma completion_records_spec send path a w :
  completion_records send path a w
  = match classify (final_lifecycle send path a w) with
    | Violation => [LogRecord ERROR (ProtocolViolation path)]
    | Clean => [LogRecord DEBUG (ProtocolCompleted path)]
    | Idle => []
    end.
Proof.
  unfold completion_records, final_lifecycle. rewrite tracked_spec.
  destruct (run (tracking_send send path) a (initial, w)) as [[[lc1 w1] o] ms].
  cbn [fst snd]. rewrite (report_spec path lc1 w1).
  cbn [fst snd log]. by rewrite drop_app_length.
Qed.

(** Along a run in protocol order the invariant holds after every call. *)
Lemma run_invariant send path a lc w :
  body_implies_start lc ->
  protocol_ordered (response_started lc)
    (map fst (run (tracking_send send path) a (lc, w)).2) = true ->
  Forall (fun x => body_implies_start x.2.1)
    (run (tracking_send send path) a (lc, w)).2.
Proof.
  revert lc w. induction a as [o|m k IH]; intros lc w Hinv Hord.
  { constructor. }
  cbn [run] in *.
  pose proof (tracking_send_lifecycle send path m lc w) as Hl.
  destruct (tracking_send send path m (lc, w)) as [[lc1 w1] r].
  simpl in Hl. subst lc1.
  specialize (IH r (observe m lc) w1).
  destruct (run (tracking_send send path) (k r) (observe m lc, w1)) as [[[lc2 w2] o] tr].
  cbn [fst snd map protocol_ordered] in *.
  apply andb_true_iff in Hord as [Hm Hrest].
  destruct (observe_flags m lc) as [Hs Hb].
  assert (body_implies_start (observe m lc)) as Hinv1.
  { unfold body_implies_start in *. rewrite Hs, Hb. intros H.
    apply orb_true_iff in H as [H|H].
    - by rewrite (Hinv H).
    - rewrite H in Hm. simpl in Hm. by rewrite Hm. }
  constructor; [exact Hinv1|].
  apply IH; [exact Hinv1|]. by rewrite Hs.
Qed.

(** When every message of a run is forwardable, the transport receives
    exactly the messages of the run, in the order of the run. *)
Lemma run_forwarded send path a lc w :
  Forall (fun m => forwardable m = true)
    (map fst (run (tracking_send send path) a (lc, w)).2) ->
  forwarded (run (tracking_send send path) a (lc, w)).1.1.2
  = forwarded w ++ map fst (run (tracking_send send path) a (lc, w)).2.
Proof.
  revert lc w. induction a as [o|m k IH]; intros lc w Hall.
  { simpl. by rewrite app_nil_r. }
  cbn [run] in *.
  destruct (tracking_send send path m (lc, w)) as [[lc1 w1] r] eqn:Hstep.
  specialize (IH r lc1 w1).
  destruct (run (tracking_send send path) (k r) (lc1, w1)) as [[[lc2 w2] o] tr].
  cbn [fst snd map] in *.
  apply Forall_cons in Hall as [Hm Htr].
  destruct (tracking_send_forwardable send path m lc w Hm) as [recs Heq].
  rewrite Hstep in Heq. injection Heq as -> -> ->.
  rewrite (IH Htr). simpl. by rewrite <- app_assoc.
Qed.

(** ** The claims *)

(** C1.  At the end of a tracked request, [response_started] tells
    whether some observed message was an [http.response.start] and
    [body_sent] whether some was an [http.response.body]; the [finally]
    block then takes the Idle branch (nothing written) when the response
    never started, the Violation branch (an error record) when it started
    and no body was sent, and the Clean branch when both flags are set. *)
Theorem classification_at_completion send path a w :
  let lc := final_lifecycle send path a w in
  response_started lc = existsb is_start (observed send path a w) /\
  body_sent lc = existsb is_body (observed send path a w) /\
  (response_started lc = false ->
     classify lc = Idle /\ completion_records send path a w = []) /\
  (response_started lc = true -> body_sent lc = false ->
     classify lc = Violation /\
     completion_records send path a w = [LogRecord ERROR (ProtocolViolation path)]) /\
  (response_started lc = true -> body_sent lc = true ->
     classify lc = Clean /\
     completion_records send path a w = [LogRecord DEBUG (ProtocolCompleted path)]).
Proof.
  intros lc. subst lc.
  rewrite completion_records_spec, final_lifecycle_after.
  destruct (lifecycle_fold_flags (observed send path a w) initial) as [Hs Hb].
  fold (lifecycle_after (observed send path a w)) in Hs, Hb.
  split; [exact Hs|]. split; [exact Hb|].
  unfold classify.
  repeat split; intros; repeat match goal with H : _ = _ |- _ => rewrite H end; done.
Qed.

Lemma classification_at_completion_witness :
  classify (final_lifecycle always_ok (VStr "/mcp")
              (then_ msg_start (Done (Raised CancelledError))) world0) = Violation.
Proof.
  apply (classification_at_completion always_ok (VStr "/mcp")
           (then_ msg_start (Done (Raised CancelledError))) world0);
    reflexivity.
Defined.

(** C2.  For a request whose scope type is "http", the [finally] block
    runs on the state the handler left, however the handler ended, and
    the call then ends exactly as the handler did: a return stays a
    return, a raised exception (cancellation included) is raised
    unchanged. *)
Theorem report_on_every_exit send sc ty a w :
  sc !! "type" = Some ty ->
  eq_str ty "http" = true ->
  let path := get sc "path" (VStr EmptyString) in
  let st := (run (tracking_send send path) a (initial, w)).1.1 in
  (report path st).2 = Returned /\
  call send sc a w = ((report path st).1.2, handler_outcome send path a w).
Proof.
  intros Hty Hhttp path st. split.
  { destruct st as [lc1 w1]. by rewrite report_spec. }
  unfold call. rewrite Hty, Hhttp. cbn [negb].
  fold path. rewrite tracked_spec. fold st.
  by destruct (report path st) as [[lc2 w2] o2].
Qed.

Lemma report_on_every_exit_witness :
  call always_ok http_scope (then_ msg_start (Done (Raised CancelledError))) world0
  = (World [msg_start]
       [LogRecord DEBUG (AsgiStart (VStr "/mcp"));
        LogRecord ERROR (ProtocolViolation (VStr "/mcp"))],
     Raised CancelledError).
Proof.
  apply (report_on_every_exit always_ok http_scope (VStr "http")
           (then_ msg_start (Done (Raised CancelledError))) world0);
    reflexivity.
Defined.

(** C3, as stated, fails: a body message observed before any start
    message leaves [body_sent] set and [response_started] clear. *)
Lemma body_before_start_breaks_invariant :
  ~ Forall (fun x => body_implies_start x.2.1)
      (trace always_ok (VStr "/mcp") (then_ (msg_body false) (Done Returned)) world0).
Proof.
  intros H. apply Forall_cons in H as [H _].
  specialize (H eq_refl). discriminate H.
Qed.

(** C3, amended.  When no body message comes before the first start
    message, [body_sent] implies [response_started] after every call of
    the tracking send function. *)
Theorem invariant_in_protocol_order send path a w :
  protocol_ordered false (observed send path a w) = true ->
  Forall (fun x => body_implies_start x.2.1) (trace send path a w).
Proof.
  intros Hord. apply run_invariant; [|exact Hord].
  unfold body_implies_start. simpl. discriminate.
Qed.

Lemma invariant_in_protocol_order_witness :
  Forall (fun x => body_implies_start x.2.1)
    (trace always_ok (VStr "/mcp")
       (then_ msg_start (then_ (msg_body true) (then_ (msg_body false) (Done Returned))))
       world0).
Proof.
  apply (invariant_in_protocol_order always_ok (VStr "/mcp")
           (then_ msg_start (then_ (msg_body true) (then_ (msg_body false) (Done Returned))))
           world0).
  reflexivity.
Defined.

(** C4, as stated, fails: a request whose handler never starts a
    response gets no record at completion. *)
Lemma idle_request_gets_no_record :
  classify (final_lifecycle always_ok (VStr "/mcp") (Done Returned) world0) = Idle /\
  length (completion_records always_ok (VStr "/mcp") (Done Returned) world0) <> 1.
Proof. split; [reflexivity|]. vm_compute. discriminate. Qed.

(** C4, amended.  At completion the [finally] block writes exactly one
    record when the response was started: at level ERROR for a Violation,
    at level DEBUG for a Clean request.  For an Idle request it writes
    none. *)
Theorem completion_record_per_class send path a w :
  match classify (final_lifecycle send path a w) with
  | Violation =>
      exists r, completion_records send path a w = [r] /\ level r = ERROR
  | Clean =>
      exists r, completion_records send path a w = [r] /\ level r = DEBUG
  | Idle => completion_records send path a w = []
  end.
Proof.
  rewrite completion_records_spec.
  destruct (classify (final_lifecycle send path a w)); [| |done]; by eexists.
Qed.

(** C5, as stated, fails: a message without a "type" key is passed to
    the tracking send function and never reaches the transport. *)
Lemma typeless_message_not_forwarded :
  forwarded (tracking_send always_ok (VStr "/mcp") ∅ (initial, world0)).1.2
  <> forwarded world0 ++ [∅].
Proof. vm_compute. discriminate. Qed.

(** C5, amended.  For every message that has a "type" key and, when
    that type is http.response.body, a "body" that has a length (or no
    "body" at all), the tracking send function updates the flags and
    hands that very message to the underlying send, whose outcome it
    returns; the flags are updated also when the underlying send raises.
    Over a run of such messages the transport receives exactly the
    messages the handler emitted, one call per message, in the handler's
    order. *)
Theorem forwardable_messages_are_forwarded send path :
  (forall m lc w, forwardable m = true ->
     let r := tracking_send send path m (lc, w) in
     r.1.1 = observe m lc /\
     forwarded r.1.2 = forwarded w ++ [m] /\
     r.2 = send (forwarded w) m) /\
  (forall a lc w,
     let r := run (tracking_send send path) a (lc, w) in
     Forall (fun m => forwardable m = true) (map fst r.2) ->
     forwarded r.1.1.2 = forwarded w ++ map fst r.2).
Proof.
  split.
  - intros m lc w Hf r. subst r.
    destruct (tracking_send_forwardable send path m lc w Hf) as [recs ->].
    done.
  - intros a lc w r. subst r. apply run_forwarded.
Qed.

Lemma forwardable_messages_are_forwarded_witness :
  (tracking_send (fun _ _ => Raised (OtherError "ClientDisconnect")) (VStr "/mcp")
     msg_start (initial, world0))
  = ((Lifecycle true false,
      World [msg_start] [LogRecord DEBUG (AsgiStart (VStr "/mcp"))]),
     Raised (OtherError "ClientDisconnect"))
  /\
  forwarded (run (tracking_send always_ok (VStr "/mcp"))
               (then_ msg_start (then_ msg_trailers (then_ (msg_body false) (Done Returned))))
               (initial, world0)).1.1.2
  = [msg_start; msg_trailers; msg_body false].
Proof.
  split.
  - reflexivity.
  - apply (proj2 (forwardable_messages_are_forwarded always_ok (VStr "/mcp"))
             (then_ msg_start (then_ msg_trailers (then_ (msg_body false) (Done Returned))))
             initial world0).
    repeat constructor.
Defined.

(** C6.  Two tracked runs in which the same sequence of messages is
    observed get the same classification and the same completion record
    levels, whatever the transports, the paths, the earlier logs, and
    however each handler ended. *)
Theorem classification_deterministic send1 send2 path1 path2 a1 a2 w1 w2 :
  observed send1 path1 a1 w1 = observed send2 path2 a2 w2 ->
  classify (final_lifecycle send1 path1 a1 w1)
  = classify (final_lifecycle send2 path2 a2 w2) /\
  map level (completion_records send1 path1 a1 w1)
  = map level (completion_records send2 path2 a2 w2).
Proof.
  intros Hobs. rewrite !completion_records_spec, !final_lifecycle_after, Hobs.
  split; [done|]. by destruct (classify _).
Qed.

Lemma classification_deterministic_witness :
  handler_outcome always_ok (VStr "/mcp") (then_ msg_start (Done Returned)) world0
    = Returned /\
  handler_outcome (fun _ _ => Raised CancelledError) (VStr "/other")
    (then_ msg_start (Done Returned)) world0 = Raised CancelledError /\
  classify (final_lifecycle always_ok (VStr "/mcp") (then_ msg_start (Done Returned)) world0)
  = classify (final_lifecycle (fun _ _ => Raised CancelledError) (VStr "/other")
                (then_ msg_start (Done Returned)) world0).
Proof.
  split; [reflexivity|]. split; [reflexivity|].
  apply (classification_deterministic always_ok (fun _ _ => Raised CancelledError)
           (VStr "/mcp") (VStr "/other")
           (then_ msg_start (Done Returned)) (then_ msg_start (Done Returned))
           world0 world0).
  reflexivity.
Defined.

(** C7, as stated, fails: the tracked state is the two flags, and no
    quantity read from it goes up by one at every observed message (a
    second start message leaves the state as it was). *)
Lemma no_message_count :
  ~ exists message_count : lifecycle -> nat,
      forall send path m lc w,
        message_count (tracking_send send path m (lc, w)).1.1
        = S (message_count lc).
Proof.
  intros [cnt H].
  specialize (H always_ok (VStr "/mcp") msg_start (Lifecycle true false) world0).
  vm_compute in H. lia.
Qed.

(** C7, amended.  Observing a start message sets [response_started],
    observing a body message sets [body_sent] whatever its "more_body"
    entry, and nothing else of the tracked state changes: each flag after
    the call is the flag before it or-ed with whether the message was of
    its kind. *)
Theorem observe_updates_flags send path m lc w :
  let lc' := (tracking_send send path m (lc, w)).1.1 in
  (is_start m = true -> response_started lc' = true) /\
  (is_body m = true -> forall mb,
     body_sent (tracking_send send path (<["more_body" := mb]> m) (lc, w)).1.1 = true) /\
  (is_body m = true -> body_sent lc' = true) /\
  lc' = Lifecycle (response_started lc || is_start m) (body_sent lc || is_body m).
Proof.
  intros lc'. subst lc'. rewrite tracking_send_lifecycle.
  destruct (observe_flags m lc) as [Hs Hb].
  split; [intros H; by rewrite Hs, H, orb_true_r|].
  split.
  { intros H mb. rewrite tracking_send_lifecycle.
    destruct (observe_flags (<["more_body" := mb]> m) lc) as [_ Hb'].
    rewrite Hb'. unfold is_body, has_type in *.
    rewrite lookup_insert_ne by done. by rewrite H, orb_true_r. }
  split; [intros H; by rewrite Hb, H, orb_true_r|].
  destruct (observe m lc); simpl in *; by subst.
Qed.

Lemma observe_updates_flags_witness :
  body_sent (tracking_send always_ok (VStr "/mcp") (msg_body true) (initial, world0)).1.1
  = true.
Proof.
  apply (observe_updates_flags always_ok (VStr "/mcp") (msg_body true) initial world0).
  reflexivity.
Defined.

(** C9.  A message whose "type" is neither http.response.start nor
    http.response.body leaves both flags and the log as they were and is
    handed to the underlying send. *)
Theorem other_types_pass_through send path m t lc w :
  m !! "type" = Some t ->
  eq_str t "http.response.start" = false ->
  eq_str t "http.response.body" = false ->
  tracking_send send path m (lc, w)
  = ((lc, World (forwarded w ++ [m]) (log w)), send (forwarded w) m).
Proof.
  intros Ht Hs Hb. unfold tracking_send. by rewrite Ht, Hs, Hb.
Qed.

Lemma other_types_pass_through_witness :
  tracking_send always_ok (VStr "/mcp") msg_trailers (Lifecycle true false, world0)
  = ((Lifecycle true false, World [msg_trailers] []), Returned).
Proof.
  apply (other_types_pass_through always_ok (VStr "/mcp") msg_trailers
           (VStr "http.response.trailers") (Lifecycle true false) world0);
    reflexivity.
Defined.

(** C10.  On a message without a "type" key the tracking send function
    raises [KeyError] with the flags, the log and the forwarded messages
    untouched: nothing reaches the transport. *)
Theorem typeless_message_raises send path m lc w :
  m !! "type" = None ->
  tracking_send send path m (lc, w) = ((lc, w), Raised (KeyError "type")).
Proof.
  intros Ht. unfold tracking_send. by rewrite Ht.
Qed.

Lemma typeless_message_raises_witness :
  tracking_send always_ok (VStr "/mcp") {[ "status" := VInt 200 ]} (initial, world0)
  = ((initial, world0), Raised (KeyError "type")).
Proof.
  apply (typeless_message_raises always_ok (VStr "/mcp") {[ "status" := VInt 200 ]}
           initial world0).
  reflexivity.
Defined.

(** ** The client *)

Lemma client_log_shape v :
  exists l1 tail,
    (Client.quick_disconnect_test v).1
    = [Client.info Client.banner;
       Client.info (Client.Text "TEST: Quick disconnect before first event");
       Client.info Client.banner]
      ++ l1 ++ (Client.handlers (Client.raised_in_request v)).1 ++ tail /\
    Forall (fun r => Client.level r = INFO) l1 /\
    Forall (fun r => Client.level r = INFO) tail.
Proof.
  unfold Client.quick_disconnect_test, Client.raised_in_request.
  destruct (Client.request (Client.stream v)) as [l1 raised] eqn:Hreq.
  assert (Forall (fun r => Client.level r = INFO) l1) as Hl1.
  { unfold Client.request in Hreq.
    destruct (Client.stream v); injection Hreq as <- _; repeat constructor. }
  cbn [snd].
  destruct (Client.handlers raised) as [l2 escaped].
  destruct (Client.client_close v), escaped; cbn [fst].
  1-3: exists l1, []; rewrite app_nil_r; by repeat split.
  eexists l1, [_; _]. by repeat split; repeat constructor.
Qed.

(** C8.  When the request raises [ReadTimeout], [quick_disconnect_test]
    logs "Timeout occurred (expected)" at level INFO, logs nothing at
    level ERROR, and, nothing else failing, completes.  Whatever happens,
    an ERROR record is written only for an exception raised by the
    request that is not a [ReadTimeout], and it reports that exception. *)
Theorem read_timeout_is_expected v :
  (forall e, Client.raised_in_request v = Some e ->
     Client.cls e = Client.ReadTimeout ->
     Client.info (Client.Text "Timeout occurred (expected)")
       ∈ (Client.quick_disconnect_test v).1 /\
     Forall (fun r => Client.level r <> ERROR) (Client.quick_disconnect_test v).1 /\
     (Client.client_close v = None ->
        (Client.quick_disconnect_test v).2 = Client.Completed)) /\
  (forall r, r ∈ (Client.quick_disconnect_test v).1 ->
     Client.level r = ERROR ->
     exists e, Client.raised_in_request v = Some e /\
       Client.cls e <> Client.ReadTimeout /\
       r = Client.error (Client.ErrorReport (Client.type_name (Client.cls e))
                           (Client.text e))).
Proof.
  destruct (client_log_shape v) as (l1 & tail & Hlog & Hl1 & Htail).
  split.
  - intros e Hr Hc. rewrite Hlog, Hr. unfold Client.handlers. rewrite Hc. cbn [Client.is_ReadTimeout fst].
    split; [set_solver|]. split.
    + repeat (apply Forall_app; split); try (repeat constructor; discriminate).
      all: eapply Forall_impl; [eassumption|]; simpl; intros ? ->; discriminate.
    + intros Hclose. unfold Client.quick_disconnect_test.
      unfold Client.raised_in_request in Hr.
      destruct (Client.request (Client.stream v)) as [l1' raised]. simpl in Hr. subst raised.
      unfold Client.handlers. rewrite Hc, Hclose. done.
  - intros r Hin Hlvl. rewrite Hlog in Hin.
    assert (forall l, Forall (fun r => Client.level r = INFO) l -> r ∈ l -> False) as Hno.
    { intros l Hl Hr. rewrite Forall_forall in Hl. specialize (Hl r Hr). congruence. }
    rewrite !elem_of_app in Hin. destruct Hin as [Hin|[Hin|[Hin|Hin]]].
    + exfalso. eapply Hno; [|exact Hin]. repeat constructor.
    + exfalso. exact (Hno l1 Hl1 Hin).
    + unfold Client.handlers in Hin.
      destruct (Client.raised_in_request v) as [e|]; [|set_solver].
      destruct (Client.is_ReadTimeout (Client.cls e)) eqn:Hrt.
      { apply list_elem_of_singleton in Hin. subst r. discriminate. }
      destruct (Client.is_Exception (Client.cls e)); [|set_solver].
      apply list_elem_of_singleton in Hin. exists e. split; [done|]. split; [|done].
      intros Heq. rewrite Heq in Hrt. discriminate.
    + exfalso. exact (Hno tail Htail Hin).
Qed.

Lemma read_timeout_is_expected_witness :
  Client.quick_disconnect_test
    (Client.Env (Client.StreamRaised (Client.Exn Client.ReadTimeout "timed out")) None)
  = ([Client.info Client.banner;
      Client.info (Client.Text "TEST: Quick disconnect before first event");
      Client.info Client.banner;
      Client.info (Client.Text "Sending POST request with SSE Accept header...");
      Client.info (Client.Text "Timeout occurred (expected)");
      Client.info (Client.Text "Connection closed");
      Client.info (Client.Text EmptyString)], Client.Completed)
  /\
  (Client.quick_disconnect_test
     (Client.Env (Client.StreamRaised (Client.Exn Client.ReadTimeout "timed out")) None)).2
  = Client.Completed.
Proof.
  split; [reflexivity|].
  apply (proj1 (read_timeout_is_expected
           (Client.Env (Client.StreamRaised (Client.Exn Client.ReadTimeout "timed out")) None))
           (Client.Exn Client.ReadTimeout "timed out"));
    reflexivity.
Defined.

(** ** Further properties of the middleware *)

Lemma run_raw_spec send a w :
  log (run (raw_send send) a w).1.1 = log w /\
  forwarded (run (raw_send send) a w).1.1
  = forwarded w ++ map fst (run (raw_send send) a w).2.
Proof.
  revert w. induction a as [o|m k IH]; intros w.
  { simpl. by rewrite app_nil_r. }
  cbn [run]. unfold raw_send at 1 3 5.
  specialize (IH (send (forwarded w) m) (World (forwarded w ++ [m]) (log w))).
  destruct (run (raw_send send) (k (send (forwarded w) m))
              (World (forwarded w ++ [m]) (log w))) as [[w2 o] tr].
  cbn [fst snd map forwarded log] in *. destruct IH as [-> ->].
  by rewrite <- app_assoc.
Qed.

(** A message that is not forwardable makes [tracking_send] raise with
    the transport and the log untouched. *)
Lemma tracking_send_not_forwardable send path m lc w :
  forwardable m = false ->
  exists e, tracking_send send path m (lc, w) = ((observe m lc, w), Raised e).
Proof.
  intros Hf. rewrite <- (tracking_send_lifecycle send path m lc w).
  unfold forwardable in Hf. unfold tracking_send.
  destruct (m !! "type") as [t|]; [|by eexists].
  destruct (eq_str t "http.response.start") eqn:Hs.
  { apply eq_str_true in Hs as ->. discriminate. }
  destruct (eq_str t "http.response.body"); [|discriminate].
  apply bool_decide_eq_false in Hf.
  destruct (len _); [|by eexists].
  exfalso. apply Hf. by eexists.
Qed.

(** The first branch of [__call__] is the run against the underlying
    send. *)
Lemma call_bypass send sc ty a w :
  sc !! "type" = Some ty ->
  eq_str ty "http" = false ->
  call send sc a w = ((run (raw_send send) a w).1.1, (run (raw_send send) a w).1.2).
Proof.
  intros Hty Hhttp. unfold call. rewrite Hty, Hhttp. cbn [negb].
  by destruct (run (raw_send send) a w) as [[w1 o] tr].
Qed.

(** X1.  A scope whose "type" is not "http" bypasses the tracking: every
    message the application emits goes to the underlying send, in order,
    nothing is logged, and the call ends as the application does. *)
Theorem non_http_bypasses_tracking send sc ty a w :
  sc !! "type" = Some ty ->
  eq_str ty "http" = false ->
  call send sc a w
  = (World (forwarded w ++ map fst (run (raw_send send) a w).2) (log w),
     (run (raw_send send) a w).1.2).
Proof.
  intros Hty Hhttp. rewrite (call_bypass send sc ty a w Hty Hhttp).
  destruct (run_raw_spec send a w) as [Hl Hf].
  destruct (run (raw_send send) a w) as [[w1 o] tr].
  cbn [fst snd] in *. destruct w1 as [f1 l1]. simpl in *. by subst.
Qed.

Lemma non_http_bypasses_tracking_witness :
  call always_ok {[ "type" := VStr "websocket" ]}
    (then_ msg_start (Done Returned)) world0
  = (World [msg_start] [], Returned).
Proof.
  apply (non_http_bypasses_tracking always_ok {[ "type" := VStr "websocket" ]}
           (VStr "websocket") (then_ msg_start (Done Returned)) world0);
    reflexivity.
Defined.

(** A scope without a "type" key makes the call raise [KeyError]
    before the application is started: nothing is forwarded or logged,
    whatever the application would have done. *)
Theorem scope_without_type_raises send sc a w :
  sc !! "type" = None ->
  call send sc a w = (w, Raised (KeyError "type")).
Proof. intros Hty. unfold call. by rewrite Hty. Qed.

Lemma scope_without_type_raises_witness :
  call always_ok {[ "path" := VStr "/mcp" ]}
    (then_ msg_start (Done Returned)) world0
  = (world0, Raised (KeyError "type")).
Proof.
  apply (scope_without_type_raises always_ok {[ "path" := VStr "/mcp" ]}
           (then_ msg_start (Done Returned)) world0).
  reflexivity.
Defined.

(** X2.  Over any tracked run the transport receives exactly the
    forwardable messages among those the handler emitted, each once and
    in the handler's order; the others never reach it. *)
Theorem transport_receives_forwardable send path a lc w :
  forwarded (run (tracking_send send path) a (lc, w)).1.1.2
  = forwarded w
    ++ List.filter forwardable (map fst (run (tracking_send send path) a (lc, w)).2).
Proof.
  revert lc w. induction a as [o|m k IH]; intros lc w.
  { simpl. by rewrite app_nil_r. }
  cbn [run].
  destruct (tracking_send send path m (lc, w)) as [[lc1 w1] r] eqn:Hstep.
  specialize (IH r lc1 w1).
  destruct (run (tracking_send send path) (k r) (lc1, w1)) as [[[lc2 w2] o] tr].
  cbn [fst snd map List.filter] in *. rewrite IH.
  destruct (forwardable m) eqn:Hf.
  - destruct (tracking_send_forwardable send path m lc w Hf) as [recs Heq].
    rewrite Hstep in Heq. injection Heq as -> -> ->. simpl.
    by rewrite <- app_assoc.
  - destruct (tracking_send_not_forwardable send path m lc w Hf) as [e Heq].
    rewrite Hstep in Heq. by injection Heq as -> -> ->.
Qed.

Lemma run_transparent send path a lc w w0 :
  forwarded w = forwarded w0 ->
  Forall (fun m => forwardable m = true) (map fst (run (raw_send send) a w0).2) ->
  (run (tracking_send send path) a (lc, w)).1.2 = (run (raw_send send) a w0).1.2 /\
  forwarded (run (tracking_send send path) a (lc, w)).1.1.2
  = forwarded (run (raw_send send) a w0).1.1 /\
  map fst (run (tracking_send send path) a (lc, w)).2
  = map fst (run (raw_send send) a w0).2.
Proof.
  revert lc w w0. induction a as [o|m k IH]; intros lc w w0 Hfw Hall.
  { done. }
  cbn [run] in *. unfold raw_send at 1 3 5. unfold raw_send at 1 in Hall.
  specialize (IH (send (forwarded w0) m)).
  destruct (run (raw_send send) (k (send (forwarded w0) m))
              (World (forwarded w0 ++ [m]) (log w0))) as [[w2' o'] tr'] eqn:Hraw.
  cbn [fst snd map] in Hall. apply Forall_cons in Hall as [Hm Htr].
  destruct (tracking_send_forwardable send path m lc w Hm) as [recs ->].
  rewrite Hfw.
  specialize (IH (observe m lc) (World (forwarded w0 ++ [m]) (log w ++ recs))
                 (World (forwarded w0 ++ [m]) (log w0)) eq_refl).
  rewrite Hraw in IH. specialize (IH Htr).
  destruct (run (tracking_send send path) (k (send (forwarded w0) m)) _)
    as [[[lc2 w2] o] tr].
  cbn [fst snd map] in *. destruct IH as (-> & -> & ->). done.
Qed.

(** X3.  The middleware is transparent: when every message the
    application emits is forwardable, a tracked (http) call and an
    untracked call of the same application end the same way and hand the
    same messages to the underlying send. *)
Theorem tracking_is_transparent send sc ty sc' ty' a w :
  sc !! "type" = Some ty -> eq_str ty "http" = true ->
  sc' !! "type" = Some ty' -> eq_str ty' "http" = false ->
  Forall (fun m => forwardable m = true) (map fst (run (raw_send send) a w).2) ->
  (call send sc a w).2 = (call send sc' a w).2 /\
  forwarded (call send sc a w).1 = forwarded (call send sc' a w).1.
Proof.
  intros Hty Hhttp Hty' Hhttp' Hall.
  rewrite (call_bypass send sc' ty' a w Hty' Hhttp'). cbn [fst snd].
  destruct (run_transparent send (get sc "path" (VStr EmptyString)) a initial w w
              eq_refl Hall) as (Ho & Hf & _).
  rewrite <- Ho, <- Hf.
  unfold call. rewrite Hty, Hhttp. cbn [negb]. rewrite tracked_spec.
  unfold handler_outcome.
  destruct (run (tracking_send send _) a (initial, w)) as [[[lc1 w1] o] tr].
  cbn [fst snd]. rewrite (report_spec _ lc1 w1). done.
Qed.

Lemma tracking_is_transparent_witness :
  (call (fun _ _ => Raised (OtherError "ClientDisconnect")) http_scope
     (then_ msg_start (then_ (msg_body false) (Done Returned))) world0).2
  = (call (fun _ _ => Raised (OtherError "ClientDisconnect"))
       {[ "type" := VStr "websocket" ]}
       (then_ msg_start (then_ (msg_body false) (Done Returned))) world0).2
  /\
  forwarded (call (fun _ _ => Raised (OtherError "ClientDisconnect")) http_scope
     (then_ msg_start (then_ (msg_body false) (Done Returned))) world0).1
  = forwarded (call (fun _ _ => Raised (OtherError "ClientDisconnect"))
       {[ "type" := VStr "websocket" ]}
       (then_ msg_start (then_ (msg_body false) (Done Returned))) world0).1.
Proof.
  apply (tracking_is_transparent (fun _ _ => Raised (OtherError "ClientDisconnect"))
           http_scope (VStr "http") {[ "type" := VStr "websocket" ]} (VStr "websocket")
           (then_ msg_start (then_ (msg_body false) (Done Returned))) world0);
    try reflexivity.
  vm_compute. repeat constructor.
Defined.

Lemma flags_le_refl lc : flags_le lc lc.
Proof. by split. Qed.

Lemma flags_le_trans a b c : flags_le a b -> flags_le b c -> flags_le a c.
Proof. intros [H1 H2] [H3 H4]. split; auto. Qed.

Lemma observe_flags_le m lc : flags_le lc (observe m lc).
Proof.
  destruct (observe_flags m lc) as [Hs Hb].
  split; intros H; [rewrite Hs|rewrite Hb]; by rewrite H.
Qed.

Lemma run_flags_from send path a lc w :
  Forall (fun x => flags_le lc x.2.1) (run (tracking_send send path) a (lc, w)).2 /\
  flags_le lc (run (tracking_send send path) a (lc, w)).1.1.1.
Proof.
  revert lc w. induction a as [o|m k IH]; intros lc w.
  { split; [constructor|apply flags_le_refl]. }
  cbn [run].
  pose proof (tracking_send_lifecycle send path m lc w) as Hl.
  destruct (tracking_send send path m (lc, w)) as [[lc1 w1] r].
  simpl in Hl. subst lc1.
  specialize (IH r (observe m lc) w1).
  destruct (run (tracking_send send path) (k r) (observe m lc, w1)) as [[[lc2 w2] o] tr].
  cbn [fst snd] in *. destruct IH as [IHt IHf].
  pose proof (observe_flags_le m lc) as Hle.
  split; [|by eapply flags_le_trans].
  constructor; [exact Hle|].
  eapply Forall_impl; [exact IHt|]. intros x Hx. by eapply flags_le_trans.
Qed.

(** X4.  The flags only ever go from unset to set: along the trace of a
    tracked run, a flag set after one call is set after every later call
    and at the end of the run. *)
Theorem flags_never_revert send path a lc w i j x y :
  i <= j ->
  (run (tracking_send send path) a (lc, w)).2 !! i = Some x ->
  (run (tracking_send send path) a (lc, w)).2 !! j = Some y ->
  flags_le x.2.1 y.2.1 /\
  flags_le y.2.1 (run (tracking_send send path) a (lc, w)).1.1.1.
Proof.
  revert lc w i j x y. induction a as [o|m k IH]; intros lc w i j x y Hij Hx Hy.
  { discriminate. }
  cbn [run] in *.
  destruct (tracking_send send path m (lc, w)) as [[lc1 w1] r].
  specialize (IH r lc1 w1).
  pose proof (run_flags_from send path (k r) lc1 w1) as [Hfrom Hend].
  destruct (run (tracking_send send path) (k r) (lc1, w1)) as [[[lc2 w2] o] tr].
  cbn [fst snd] in *.
  destruct j as [|j].
  - assert (i = 0) as -> by lia. simpl in Hx, Hy.
    injection Hx as <-. injection Hy as <-. split; [apply flags_le_refl|exact Hend].
  - destruct i as [|i]; simpl in Hx, Hy.
    + injection Hx as <-. rewrite Forall_forall in Hfrom.
      pose proof (list_elem_of_lookup_2 _ _ _ Hy) as Hin.
      split; [exact (Hfrom y Hin)|].
      exact (proj2 (IH j j y y (le_n j) Hy Hy)).
    + apply (IH i j x y); [lia|done|done].
Qed.

Lemma flags_never_revert_witness :
  flags_le (Lifecycle true false) (Lifecycle true true).
Proof.
  apply (flags_never_revert always_ok (VStr "/mcp")
           (then_ msg_start (then_ (msg_body false) (Done Returned)))
           initial world0 0 1
           (msg_start, (Lifecycle true false,
              World [msg_start] [LogRecord DEBUG (AsgiStart (VStr "/mcp"))]))
           (msg_body false, (Lifecycle true true,
              World [msg_start; msg_body false]
                [LogRecord DEBUG (AsgiStart (VStr "/mcp"));
                 LogRecord DEBUG (AsgiBody (VStr "/mcp") 0 (VBool false))])));
    [lia|reflexivity|reflexivity].
Defined.

Lemma tracking_send_log send path m lc w :
  exists recs,
    log (tracking_send send path m (lc, w)).1.2 = log w ++ recs /\
    Forall (fun r => record_path r = path /\ level r = DEBUG) recs.
Proof.
  unfold tracking_send, raw_send, emit.
  destruct (m !! "type") as [t|]; [|exists []; by rewrite app_nil_r].
  destruct (eq_str t "http.response.start").
  { eexists [_]. split; [done|]. by repeat constructor. }
  destruct (eq_str t "http.response.body").
  - destruct (len _).
    + eexists [_]. split; [done|]. by repeat constructor.
    + exists []. by rewrite app_nil_r.
  - exists []. by rewrite app_nil_r.
Qed.

Lemma run_log send path a lc w :
  exists recs,
    log (run (tracking_send send path) a (lc, w)).1.1.2 = log w ++ recs /\
    Forall (fun r => record_path r = path /\ level r = DEBUG) recs.
Proof.
  revert lc w. induction a as [o|m k IH]; intros lc w.
  { exists []. by rewrite app_nil_r. }
  cbn [run].
  destruct (tracking_send_log send path m lc w) as (recs1 & Hl1 & Hr1).
  destruct (tracking_send send path m (lc, w)) as [[lc1 w1] r].
  destruct (IH r lc1 w1) as (recs2 & Hl2 & Hr2).
  destruct (run (tracking_send send path) (k r) (lc1, w1)) as [[[lc2 w2] o] tr].
  cbn [fst snd] in *. exists (recs1 ++ recs2). split.
  - by rewrite Hl2, Hl1, app_assoc.
  - by apply Forall_app.
Qed.

(** What a tracked call writes: the debug records of the run, then the
    completion record of the class. *)
Lemma call_log send sc ty a w :
  sc !! "type" = Some ty -> eq_str ty "http" = true ->
  let path := get sc "path" (VStr EmptyString) in
  exists recs,
    log (call send sc a w).1
    = log w ++ recs ++ completion_records send path a w /\
    Forall (fun r => record_path r = path /\ level r = DEBUG) recs.
Proof.
  intros Hty Hhttp path. rewrite completion_records_spec.
  unfold call. rewrite Hty, Hhttp. cbn [negb]. fold path.
  rewrite tracked_spec. unfold final_lifecycle.
  destruct (run_log send path a initial w) as (recs & Hl & Hr).
  destruct (run (tracking_send send path) a (initial, w)) as [[[lc1 w1] o] tr].
  cbn [fst snd] in *. rewrite (report_spec path lc1 w1). cbn [fst snd log].
  exists recs. split; [|exact Hr]. by rewrite Hl, app_assoc.
Qed.

(** X5.  A tracked call only appends to the log, and every record it
    appends is tagged with the scope's "path", or with the empty string
    when the scope has no "path". *)
Theorem records_tagged_with_path send sc ty a w :
  sc !! "type" = Some ty -> eq_str ty "http" = true ->
  exists recs,
    log (call send sc a w).1 = log w ++ recs /\
    Forall (fun r => record_path r = default (VStr EmptyString) (sc !! "path")) recs.
Proof.
  intros Hty Hhttp.
  destruct (call_log send sc ty a w Hty Hhttp) as (recs & Hl & Hr).
  exists (recs ++ completion_records send (get sc "path" (VStr EmptyString)) a w).
  split; [exact Hl|]. apply Forall_app. split.
  - eapply Forall_impl; [exact Hr|]. by intros r [? _].
  - rewrite completion_records_spec. destruct (classify _); by repeat constructor.
Qed.

Lemma records_tagged_with_path_witness :
  exists recs,
    log (call always_ok {[ "type" := VStr "http" ]}
           (then_ msg_start (Done Returned)) world0).1 = log world0 ++ recs /\
    Forall (fun r => record_path r = VStr EmptyString) recs.
Proof.
  exact (records_tagged_with_path always_ok {[ "type" := VStr "http" ]} (VStr "http")
           (then_ msg_start (Done Returned)) world0 eq_refl eq_refl).
Defined.

(** X6.  The only ERROR record a tracked call can write is the
    violation report: among the records it appends, those at level ERROR
    are that one record when the request is a Violation and none
    otherwise. *)
Theorem error_only_on_violation send sc ty a w :
  sc !! "type" = Some ty -> eq_str ty "http" = true ->
  let path := get sc "path" (VStr EmptyString) in
  exists recs,
    log (call send sc a w).1 = log w ++ recs /\
    List.filter is_error recs
    = match classify (final_lifecycle send path a w) with
      | Violation => [LogRecord ERROR (ProtocolViolation path)]
      | Clean | Idle => []
      end.
Proof.
  intros Hty Hhttp path.
  destruct (call_log send sc ty a w Hty Hhttp) as (recs & Hl & Hr).
  fold path in Hl, Hr.
  exists (recs ++ completion_records send path a w). split; [exact Hl|].
  rewrite List.filter_app.
  assert (List.filter is_error recs = []) as ->.
  { clear Hl. induction Hr as [|r recs [_ Hlvl] _ IH]; [done|].
    simpl. unfold is_error at 1. by rewrite Hlvl. }
  rewrite completion_records_spec. by destruct (classify _).
Qed.

Lemma error_only_on_violation_witness :
  exists recs,
    log (call always_ok http_scope (then_ msg_start (Done (Raised CancelledError)))
           world0).1 = log world0 ++ recs /\
    List.filter is_error recs = [LogRecord ERROR (ProtocolViolation (VStr "/mcp"))].
Proof.
  apply (error_only_on_violation always_ok http_scope (VStr "http")
           (then_ msg_start (Done (Raised CancelledError))) world0);
    reflexivity.
Defined.

(** X7.  A body message whose "body" has no length (an int, a bool,
    None) makes [tracking_send] raise [TypeError] after [body_sent] has
    been set: the flag is set although nothing is logged and the message
    never reaches the transport. *)
Theorem unsized_body_sets_flag_and_raises send path m lc w :
  is_body m = true ->
  len (get m "body" (VBytes [])) = None ->
  tracking_send send path m (lc, w)
  = ((Lifecycle (response_started lc) true, w), Raised TypeError).
Proof.
  intros Hb Hlen. unfold is_body, has_type in Hb. unfold tracking_send.
  destruct (m !! "type") as [t|]; [|discriminate].
  apply eq_str_true in Hb as ->. simpl. by rewrite Hlen.
Qed.

Lemma unsized_body_sets_flag_and_raises_witness :
  tracking_send always_ok (VStr "/mcp") msg_bad_body (Lifecycle true false, world0)
  = ((Lifecycle true true, world0), Raised TypeError).
Proof.
  apply (unsized_body_sets_flag_and_raises always_ok (VStr "/mcp") msg_bad_body
           (Lifecycle true false) world0);
    reflexivity.
Defined.

Lemma existsb_Permutation {A} (f : A -> bool) (l1 l2 : list A) :
  l1 ≡ₚ l2 -> existsb f l1 = existsb f l2.
Proof.
  induction 1 as [|x l1 l2 _ IH|x y l|l1 l2 l3 _ IH1 _ IH2]; simpl.
  - done.
  - by rewrite IH.
  - by destruct (f x), (f y).
  - by rewrite IH1.
Qed.

(** X8.  The classification does not depend on the order of the
    messages: two tracked runs whose observed messages are the same up to
    reordering get the same final flags, hence the same class.  A body
    sent before the start counts as much as one sent after it. *)
Theorem classification_order_insensitive send1 send2 path1 path2 a1 a2 w1 w2 :
  observed send1 path1 a1 w1 ≡ₚ observed send2 path2 a2 w2 ->
  final_lifecycle send1 path1 a1 w1 = final_lifecycle send2 path2 a2 w2 /\
  classify (final_lifecycle send1 path1 a1 w1)
  = classify (final_lifecycle send2 path2 a2 w2).
Proof.
  intros Hp.
  assert (final_lifecycle send1 path1 a1 w1 = final_lifecycle send2 path2 a2 w2) as Heq.
  { rewrite !final_lifecycle_after. unfold lifecycle_after.
    destruct (lifecycle_fold_flags (observed send1 path1 a1 w1) initial) as [Hs1 Hb1].
    destruct (lifecycle_fold_flags (observed send2 path2 a2 w2) initial) as [Hs2 Hb2].
    rewrite (existsb_Permutation is_start _ _ Hp) in Hs1.
    rewrite (existsb_Permutation is_body _ _ Hp) in Hb1.
    rewrite <- Hs2 in Hs1. rewrite <- Hb2 in Hb1.
    destruct (foldl _ initial (observed send1 path1 a1 w1)),
             (foldl _ initial (observed send2 path2 a2 w2)).
    simpl in *. by subst. }
  split; [exact Heq|by rewrite Heq].
Qed.

Lemma classification_order_insensitive_witness :
  classify (final_lifecycle always_ok (VStr "/mcp")
              (then_ msg_start (then_ (msg_body false) (Done Returned))) world0)
  = classify (final_lifecycle always_ok (VStr "/mcp")
              (then_ (msg_body false) (then_ msg_start (Done Returned))) world0).
Proof.
  apply (classification_order_insensitive always_ok always_ok (VStr "/mcp") (VStr "/mcp")
           (then_ msg_start (then_ (msg_body false) (Done Returned)))
           (then_ (msg_body false) (then_ msg_start (Done Returned)))
           world0 world0).
  vm_compute. apply perm_swap.
Defined.

Lemma append_suffix_inj (a b : string) :
  String.append a "!" = String.append b "!" -> a = b.
Proof.
  revert b. induction a as [|c a IH]; intros [|d b] H; simpl in H.
  - done.
  - injection H as _ H. destruct b; discriminate.
  - injection H as _ H. destruct a; discriminate.
  - injection H as -> H. by rewrite (IH b H).
Qed.

Lemma length_append_suffix (a : string) :
  String.length (String.append a "!") = S (String.length a).
Proof. induction a as [|c a IH]; simpl; [done|by rewrite IH]. Qed.

(** X9.  [get_greeting] is injective and adds eight characters: two
    names get the same greeting only if they are the same name. *)
Theorem get_greeting_injective (a b : string) :
  get_greeting a = get_greeting b ->
  a = b /\ String.length (get_greeting a) = 8 + String.length a.
Proof.
  unfold get_greeting. intros H. simpl in H.
  split.
  - apply append_suffix_inj. injection H as H. exact H.
  - change (8 + String.length a) with (7 + S (String.length a)).
    rewrite <- length_append_suffix. reflexivity.
Qed.

Lemma get_greeting_injective_witness :
  "World" = "World" /\ String.length (get_greeting "World") = 8 + String.length "World".
Proof.
  apply (get_greeting_injective "World" "World"). reflexivity.
Defined.

(** ** Further properties of the clients *)

(** How [quick_disconnect_test] ends, by what the request raised and
    whether closing the client raised. *)
Lemma quick_result v :
  (Client.quick_disconnect_test v).2
  = match Client.client_close v, Client.raised_in_request v with
    | Some e, _ => Client.Propagated e
    | None, Some e =>
        if Client.is_Exception (Client.cls e) then Client.Completed
        else Client.Propagated e
    | None, None => Client.Completed
    end.
Proof.
  unfold Client.quick_disconnect_test, Client.raised_in_request.
  destruct (Client.request (Client.stream v)) as [l1 raised]. cbn [snd].
  unfold Client.handlers.
  destruct raised as [e|]; [|by destruct (Client.client_close v)].
  destruct (Client.cls e); simpl; by destruct (Client.client_close v).
Qed.

Lemma delayed_result d v :
  (Client.delayed_disconnect_test d v).2
  = match Client.delayed_client_close v, Client.delayed_raised d v with
    | Some e, _ => Client.Propagated e
    | None, Some e =>
        if Client.is_Exception (Client.cls e) then Client.Completed
        else Client.Propagated e
    | None, None => Client.Completed
    end.
Proof.
  unfold Client.delayed_disconnect_test, Client.delayed_raised.
  destruct (Client.delayed_request d (Client.delayed_stream_of v)) as [l1 raised].
  cbn [snd]. unfold Client.delayed_handlers.
  destruct raised as [e|]; [|by destruct (Client.delayed_client_close v)].
  destruct (Client.cls e); simpl; by destruct (Client.delayed_client_close v).
Qed.

(** X10.  [quick_disconnect_test] swallows every exception of the
    [Exception] hierarchy raised by the request: what it lets out is
    either what closing the client raised, or an exception of the request
    that is not an [Exception] (a cancellation, a keyboard interrupt). *)
Theorem quick_lets_out_no_Exception v e :
  (Client.quick_disconnect_test v).2 = Client.Propagated e ->
  Client.client_close v = Some e \/
  (Client.raised_in_request v = Some e /\
   Client.is_Exception (Client.cls e) = false).
Proof.
  rewrite quick_result.
  destruct (Client.client_close v) as [e'|].
  { intros [= ->]. by left. }
  destruct (Client.raised_in_request v) as [e'|]; [|discriminate].
  destruct (Client.is_Exception (Client.cls e')) eqn:Hex; [discriminate|].
  intros [= ->]. by right.
Qed.

Lemma quick_lets_out_no_Exception_witness :
  Some (Client.Exn Client.CancelledError "cancelled") = Some (Client.Exn Client.CancelledError "cancelled") /\
  Client.is_Exception Client.CancelledError = false.
Proof.
  destruct (quick_lets_out_no_Exception
              (Client.Env (Client.StreamRaised (Client.Exn Client.CancelledError "cancelled")) None)
              (Client.Exn Client.CancelledError "cancelled") eq_refl) as [H|H].
  - discriminate H.
  - exact H.
Defined.

(** Membership of a closed record in an explicit list of records. *)
Ltac absurd_member H :=
  repeat (apply elem_of_cons in H as [H|H]; [vm_compute in H; discriminate H|]);
  apply elem_of_nil in H; contradiction.

Ltac client_cases v :=
  let e := fresh "e" in let c := fresh "c" in let t := fresh "t" in
  destruct v as [[[c t]|? [[c t]|]] [e|]]; try destruct c.

Lemma quick_log_closed v :
  Client.info (Client.Text "Connection closed") ∈ (Client.quick_disconnect_test v).1 ->
  (Client.quick_disconnect_test v).2 = Client.Completed.
Proof.
  intros H. client_cases v; cbn in H |- *; try reflexivity; exfalso; absurd_member H.
Qed.

(** X11.  [quick_disconnect_test] logs "Connection closed" exactly when
    it completes: when an exception leaves the function the line is not
    written. *)
Theorem quick_closed_iff_completed v :
  (Client.quick_disconnect_test v).2 = Client.Completed <->
  Client.info (Client.Text "Connection closed") ∈ (Client.quick_disconnect_test v).1.
Proof.
  split; [|apply quick_log_closed].
  intros H. unfold Client.quick_disconnect_test in *.
  destruct (Client.request (Client.stream v)) as [l1 raised].
  destruct (Client.handlers raised) as [l2 escaped].
  destruct (Client.client_close v), escaped; try discriminate H.
  cbn [fst]. rewrite !elem_of_app. right. right. right. apply elem_of_cons. by left.
Qed.

Ltac delayed_cases v :=
  let e := fresh "e" in let c := fresh "c" in let t := fresh "t" in
  let c' := fresh "c" in let t' := fresh "t" in
  destruct v as [[[c t]|? [[c t]|] [[c' t']|]] [e|]];
  try destruct c; try destruct c'.

(** X12.  In [delayed_disconnect_test] a [ReadTimeout] raised by the
    request is logged as "Timeout occurred" at level INFO and nothing is
    logged at level ERROR; if closing the client returns, the test
    completes. *)
Theorem delayed_timeout_not_an_error d v e :
  Client.delayed_raised d v = Some e ->
  Client.cls e = Client.ReadTimeout ->
  Client.info (Client.Text "Timeout occurred")
    ∈ (Client.delayed_disconnect_test d v).1 /\
  Forall (fun r => Client.level r <> ERROR) (Client.delayed_disconnect_test d v).1 /\
  (Client.delayed_client_close v = None ->
     (Client.delayed_disconnect_test d v).2 = Client.Completed).
Proof.
  intros Hr Hc. split; [|split].
  - unfold Client.delayed_disconnect_test. unfold Client.delayed_raised in Hr.
    destruct (Client.delayed_request d (Client.delayed_stream_of v)) as [l1 raised].
    simpl in Hr. subst raised. unfold Client.delayed_handlers. rewrite Hc.
    cbn [Client.is_ReadTimeout].
    destruct (Client.delayed_client_close v); cbn [fst];
      rewrite !elem_of_app; right; right; [|left]; apply elem_of_cons; by left.
  - unfold Client.delayed_disconnect_test. unfold Client.delayed_raised in Hr.
    assert (Forall (fun r => Client.level r <> ERROR)
              (Client.delayed_request d (Client.delayed_stream_of v)).1) as Hl1.
    { unfold Client.delayed_request.
      destruct (Client.delayed_stream_of v) as [?|? [?|] ?]; cbn [fst];
        repeat constructor; discriminate. }
    destruct (Client.delayed_request d (Client.delayed_stream_of v)) as [l1 raised].
    simpl in Hr, Hl1. subst raised. unfold Client.delayed_handlers. rewrite Hc.
    cbn [Client.is_ReadTimeout].
    destruct (Client.delayed_client_close v); cbn [fst];
      repeat (apply Forall_app; split); try exact Hl1;
      repeat constructor; discriminate.
  - intros Hclose. rewrite delayed_result, Hclose, Hr, Hc. reflexivity.
Qed.

Lemma delayed_timeout_not_an_error_witness :
  (Client.delayed_disconnect_test 50
     (Client.DelayedEnv
        (Client.DelayedRaised (Client.Exn Client.ReadTimeout "timed out")) None)).2
  = Client.Completed.
Proof.
  apply (delayed_timeout_not_an_error 50
           (Client.DelayedEnv
              (Client.DelayedRaised (Client.Exn Client.ReadTimeout "timed out")) None)
           (Client.Exn Client.ReadTimeout "timed out"));
    reflexivity.
Defined.

(** X13.  [delayed_disconnect_test] swallows every exception of the
    [Exception] hierarchy raised by the request, the wait or the close of
    the response: what it lets out is what closing the client raised, or
    an exception that is not an [Exception]. *)
Theorem delayed_lets_out_no_Exception d v e :
  (Client.delayed_disconnect_test d v).2 = Client.Propagated e ->
  Client.delayed_client_close v = Some e \/
  (Client.delayed_raised d v = Some e /\
   Client.is_Exception (Client.cls e) = false).
Proof.
  rewrite delayed_result.
  destruct (Client.delayed_client_close v) as [e'|].
  { intros [= ->]. by left. }
  destruct (Client.delayed_raised d v) as [e'|]; [|discriminate].
  destruct (Client.is_Exception (Client.cls e')) eqn:Hex; [discriminate|].
  intros [= ->]. by right.
Qed.

Lemma delayed_lets_out_no_Exception_witness :
  Client.delayed_raised 100
    (Client.DelayedEnv
       (Client.DelayedOpened (Client.Response 200 [])
          (Some (Client.Exn Client.CancelledError "cancelled")) None) None)
  = Some (Client.Exn Client.CancelledError "cancelled") /\
  Client.is_Exception Client.CancelledError = false.
Proof.
  destruct (delayed_lets_out_no_Exception 100
              (Client.DelayedEnv
                 (Client.DelayedOpened (Client.Response 200 [])
                    (Some (Client.Exn Client.CancelledError "cancelled")) None) None)
              (Client.Exn Client.CancelledError "cancelled") eq_refl) as [H|H].
  - discriminate H.
  - exact H.
Defined.

(** ** [main] *)

Lemma and_then_completed p q :
  p.2 = Client.Completed ->
  Client.and_then p q = (p.1 ++ q.1, q.2).
Proof. intros H. unfold Client.and_then. by rewrite H. Qed.

Lemma and_then_result p q :
  (Client.and_then p q).2 = Client.Completed <->
  p.2 = Client.Completed /\ q.2 = Client.Completed.
Proof.
  unfold Client.and_then. destruct p as [lp [|e]]; simpl; [tauto|].
  split; [discriminate|]. by intros [? _].
Qed.

Lemma and_then_member r p q :
  r ∈ (Client.and_then p q).1 ->
  r ∈ p.1 \/ (p.2 = Client.Completed /\ r ∈ q.1).
Proof.
  unfold Client.and_then. destruct p as [lp [|e]]; simpl; [|by left].
  rewrite elem_of_app. tauto.
Qed.

Lemma quick_undisturbed_completes v :
  Client.undisturbed v = true ->
  (Client.quick_disconnect_test v).2 = Client.Completed.
Proof.
  rewrite quick_result. unfold Client.undisturbed.
  destruct (Client.client_close v); [discriminate|].
  destruct (Client.raised_in_request v); [|done]. by intros ->.
Qed.

Lemma delayed_undisturbed_completes d v :
  Client.delayed_undisturbed d v = true ->
  (Client.delayed_disconnect_test d v).2 = Client.Completed.
Proof.
  rewrite delayed_result. unfold Client.delayed_undisturbed.
  destruct (Client.delayed_client_close v); [discriminate|].
  destruct (Client.delayed_raised d v); [|done]. by intros ->.
Qed.

(** X14.  A failing request never aborts the suite: when the four sleeps
    return and no test meets an exception outside the [Exception]
    hierarchy or a failure closing its client, [main] completes, having
    run the immediate test and the 50, 100 and 200 ms tests in that
    order between its opening and closing lines, whatever network errors
    and timeouts the requests raised. *)
Theorem main_survives_request_failures v :
  Client.sleep0 v = None -> Client.sleep1 v = None ->
  Client.sleep2 v = None -> Client.sleep3 v = None ->
  Client.undisturbed (Client.test1 v) = true ->
  Client.delayed_undisturbed 50 (Client.test2 v) = true ->
  Client.delayed_undisturbed 100 (Client.test3 v) = true ->
  Client.delayed_undisturbed 200 (Client.test4 v) = true ->
  Client.main v
  = (Client.main_intro
     ++ (Client.quick_disconnect_test (Client.test1 v)).1
     ++ (Client.delayed_disconnect_test 50 (Client.test2 v)).1
     ++ (Client.delayed_disconnect_test 100 (Client.test3 v)).1
     ++ (Client.delayed_disconnect_test 200 (Client.test4 v)).1
     ++ Client.main_outro,
     Client.Completed).
Proof.
  intros H0 H1 H2 H3 U1 U2 U3 U4. unfold Client.main.
  rewrite H0, H1, H2, H3.
  apply quick_undisturbed_completes in U1.
  apply delayed_undisturbed_completes in U2, U3, U4.
  repeat (rewrite and_then_completed by (done || (cbn [snd]; done)); cbn [fst snd]).
  done.
Qed.

Lemma main_survives_request_failures_witness :
  (Client.main
     (Client.MainEnv
        None (Client.Env (Client.StreamRaised (Client.Exn Client.ConnectError "refused")) None)
        None (Client.DelayedEnv
                (Client.DelayedRaised (Client.Exn Client.ReadTimeout "timed out")) None)
        None (Client.DelayedEnv
                (Client.DelayedOpened (Client.Response 200 []) None None) None)
        None (Client.DelayedEnv
                (Client.DelayedOpened (Client.Response 200 []) None
                   (Some (Client.Exn Client.RemoteProtocolError "closed"))) None))).2
  = Client.Completed.
Proof.
  exact (f_equal snd
    (main_survives_request_failures
       (Client.MainEnv
          None (Client.Env (Client.StreamRaised (Client.Exn Client.ConnectError "refused")) None)
          None (Client.DelayedEnv
                  (Client.DelayedRaised (Client.Exn Client.ReadTimeout "timed out")) None)
          None (Client.DelayedEnv
                  (Client.DelayedOpened (Client.Response 200 []) None None) None)
          None (Client.DelayedEnv
                  (Client.DelayedOpened (Client.Response 200 []) None
                     (Some (Client.Exn Client.RemoteProtocolError "closed"))) None))
       eq_refl eq_refl eq_refl eq_refl eq_refl eq_refl eq_refl eq_refl)).
Defined.

Lemma quick_log_no_summary v :
  Client.info (Client.Text "All tests completed") ∈ (Client.quick_disconnect_test v).1 ->
  False.
Proof. intros H. client_cases v; cbn in H; absurd_member H. Qed.

Lemma delayed_log_no_summary d v :
  Client.info (Client.Text "All tests completed")
    ∈ (Client.delayed_disconnect_test d v).1 ->
  False.
Proof. intros H. delayed_cases v; cbn in H; absurd_member H. Qed.

Lemma sleep_log_empty r s : r ∈ (Client.sleep s).1 -> False.
Proof. intros H. by apply elem_of_nil in H. Qed.

(** X15.  [main] logs "All tests completed" exactly when it completes:
    if a sleep or a test lets an exception out, the remaining tests do
    not run and the summary line is not written. *)
Theorem main_summary_iff_completed v :
  (Client.main v).2 = Client.Completed <->
  Client.info (Client.Text "All tests completed") ∈ (Client.main v).1.
Proof.
  unfold Client.main. split.
  - intros H.
    repeat (apply and_then_result in H as [?Hc H];
            rewrite and_then_completed by assumption; cbn [fst snd]).
    cbn [fst Client.say Client.main_outro].
    repeat (apply elem_of_app; right).
    apply elem_of_cons. right. apply elem_of_cons. by left.
  - intros H.
    apply and_then_member in H as [H|[Hc0 H]]; [exfalso; absurd_member H|].
    apply and_then_member in H as [H|[Hc1 H]]; [exfalso; by eapply sleep_log_empty|].
    apply and_then_member in H as [H|[Hc2 H]]; [exfalso; by eapply quick_log_no_summary|].
    apply and_then_member in H as [H|[Hc3 H]]; [exfalso; by eapply sleep_log_empty|].
    apply and_then_member in H as [H|[Hc4 H]]; [exfalso; by eapply delayed_log_no_summary|].
    apply and_then_member in H as [H|[Hc5 H]]; [exfalso; by eapply sleep_log_empty|].
    apply and_then_member in H as [H|[Hc6 H]]; [exfalso; by eapply delayed_log_no_summary|].
    apply and_then_member in H as [H|[Hc7 H]]; [exfalso; by eapply sleep_log_empty|].
    apply and_then_member in H as [H|[Hc8 H]]; [exfalso; by eapply delayed_log_no_summary|].
    repeat (apply and_then_result; split; [assumption|]). reflexivity.
Qed.

(** How [rapid_disconnect_during_handshake] ends. *)
Lemma handshake_result v :
  (Client.rapid_disconnect_during_handshake v).2
  = match Client.handshake_client_close v,
          (Client.handshake_request (Client.handshake_of v)).2 with
    | Some e, _ => Client.Propagated e
    | None, Some e =>
        if Client.is_Exception (Client.cls e) then Client.Completed
        else Client.Propagated e
    | None, None => Client.Completed
    end.
Proof.
  unfold Client.rapid_disconnect_during_handshake.
  destruct (Client.handshake_request (Client.handshake_of v)) as [l1 raised].
  cbn [snd]. unfold Client.handshake_handlers.
  destruct raised as [e|]; [|by destruct (Client.handshake_client_close v)].
  destruct (Client.is_Exception (Client.cls e));
    by destruct (Client.handshake_client_close v).
Qed.

(** X16.  [rapid_disconnect_during_handshake] has no clause for
    timeouts: every exception of the [Exception] hierarchy raised by the
    send or by closing the response, a [ReadTimeout] included, is
    reported at level ERROR with its class name and text, and the test
    then completes if closing the client returns. *)
Theorem handshake_reports_every_Exception v e :
  (Client.handshake_request (Client.handshake_of v)).2 = Some e ->
  Client.is_Exception (Client.cls e) = true ->
  Client.error (Client.ErrorReport (Client.type_name (Client.cls e)) (Client.text e))
    ∈ (Client.rapid_disconnect_during_handshake v).1 /\
  (Client.handshake_client_close v = None ->
     (Client.rapid_disconnect_during_handshake v).2 = Client.Completed).
Proof.
  intros Hr Hex. split.
  - unfold Client.rapid_disconnect_during_handshake.
    destruct (Client.handshake_request (Client.handshake_of v)) as [l1 raised].
    simpl in Hr. subst raised. unfold Client.handshake_handlers. rewrite Hex.
    destruct (Client.handshake_client_close v); cbn [fst];
      rewrite !elem_of_app; right; right; [|left]; apply elem_of_cons; by left.
  - intros Hclose. by rewrite handshake_result, Hclose, Hr, Hex.
Qed.

Lemma handshake_reports_every_Exception_witness :
  Client.error (Client.ErrorReport "ReadTimeout" "timed out")
    ∈ (Client.rapid_disconnect_during_handshake
         (Client.HandshakeEnv
            (Client.SendRaised (Client.Exn Client.ReadTimeout "timed out")) None)).1.
Proof.
  apply (handshake_reports_every_Exception
           (Client.HandshakeEnv
              (Client.SendRaised (Client.Exn Client.ReadTimeout "timed out")) None)
           (Client.Exn Client.ReadTimeout "timed out"));
    reflexivity.
Defined.
